(** * lezh/fuse: the operation envelope ([fuseops.commonOp]) and the
    file-metadata matchers ([fusetesting]), embedded from the Go sources.

    [src/fuseops/common_op.go] is embedded in [Module Fuseops],
    [src/unnamed/part_000] (package [fusetesting]) in [Module Fusetesting].
    What both need of the Go runtime and of packages [fmt], [strings],
    [reflect] and [time] is in [Module Go], each function modelled after its
    package documentation. *)

From Stdlib Require Import ZArith List String Ascii Bool Lia DecimalString.
From Stdlib.Strings Require Import Byte.
Import ListNotations.
Open Scope Z_scope.
Open Scope string_scope.

(* ================================================================== *)
(** * The Go runtime and library functions the sources call *)
(* ================================================================== *)

Module Go.

(** A Go call either returns or panics. *)
Inductive outcome (A : Type) : Type :=
| Ok (a : A)
| Panic (msg : string).
Arguments Ok {A} a.
Arguments Panic {A} msg.

(** A non-nil [error] is identified with its [Error()] text; [nil] is [None]. *)
Definition error := string.

(** Dynamic values ([interface{}]) that reach [fmt]: struct fields read by
    reflection and the arguments of the log calls. *)
Inductive goval : Type :=
| GoString (s : string)
| GoUint64 (n : N)
| GoInt (z : Z)
| GoBool (b : bool)
| GoError (e : error).

Definition decimalN (n : N) : string := NilZero.string_of_uint (N.to_uint n).
Definition decimalZ (z : Z) : string := NilZero.string_of_int (Z.to_int z).

(** [fmt]'s default rendering, shared by the verbs [%v] and [%s] for the
    operands the sources pass. *)
Definition fmt_v (v : goval) : string :=
  match v with
  | GoString s => s
  | GoUint64 n => decimalN n
  | GoInt z => decimalZ z
  | GoBool true => "true"
  | GoBool false => "false"
  | GoError e => e
  end.

(** [fmt.Sprintf] for the verbs the sources use, [%s] on strings and [%v];
    other verbs do not occur there and are rendered like [%v]. [%%] is a
    literal percent sign, a verb without operand prints [%!v(MISSING)]. *)
Fixpoint Sprintf (format : string) (args : list goval) : string :=
  match format with
  | EmptyString => EmptyString
  | String c rest =>
      if Ascii.eqb c "%" then
        match rest with
        | EmptyString => "%!(NOVERB)"
        | String verb rest' =>
            if Ascii.eqb verb "%" then String "%" (Sprintf rest' args)
            else
              match args with
              | a :: args' => fmt_v a ++ Sprintf rest' args'
              | [] => "%!" ++ String verb ("(MISSING)" ++ Sprintf rest' [])
              end
        end
      else String c (Sprintf rest args)
  end.

(** [strings.HasPrefix] and [strings.HasSuffix]. *)
Definition HasPrefix (s pre : string) : bool := String.prefix pre s.

Definition HasSuffix (s suf : string) : bool :=
  (String.length suf <=? String.length s)%nat
  && String.eqb
       (String.substring (String.length s - String.length suf)
          (String.length suf) s)
       suf.

Definition len (s : string) : Z := Z.of_nat (String.length s).

(** The slice expression [s[lo:hi]] on a string: a run-time panic unless
    [0 <= lo <= hi <= len(s)]. *)
Definition slice (s : string) (lo hi : Z) : outcome string :=
  if ((0 <=? lo) && (lo <=? hi) && (hi <=? len s))%Z then
    Ok (String.substring (Z.to_nat lo) (Z.to_nat (hi - lo)) s)
  else Panic "runtime error: slice bounds out of range".

(** ** Package [reflect]

    What [reflect.ValueOf] yields for the values an op can be: a struct, a
    pointer to a value, or a value of another kind, given by the name of
    the kind ([func], [int], ...) and of its type. *)
Inductive Value : Type :=
| VStruct (typ : string) (fields : list (string * goval))
| VPtr (elem : Value)
| VOther (kind : string) (typ : string).

(** [v.Type().String()]: a pointer type prints as [*] followed by its
    element type. *)
Fixpoint TypeString (v : Value) : string :=
  match v with
  | VStruct typ _ => typ
  | VPtr elem => "*" ++ TypeString elem
  | VOther _ typ => typ
  end.

Fixpoint lookupField (name : string) (fields : list (string * goval))
  : option goval :=
  match fields with
  | [] => None
  | (n, x) :: rest => if String.eqb n name then Some x else lookupField name rest
  end.

(** [v.FieldByName(name)]: "returns the struct field with the given name. It
    returns the zero Value if no field was found. It panics if v's Kind is
    not struct." The zero Value ([IsValid() == false]) is [None]; the panic
    names the kind of the value. *)
Definition FieldByName (v : Value) (name : string) : outcome (option goval) :=
  match v with
  | VStruct _ fields => Ok (lookupField name fields)
  | VPtr _ =>
      Panic "reflect: call of reflect.Value.FieldByName on ptr Value"
  | VOther kind _ =>
      Panic ("reflect: call of reflect.Value.FieldByName on " ++ kind
             ++ " Value")
  end.

(** ** 64-bit signed integers ([int64], [time.Duration]) *)
Definition minInt64 : Z := - 2 ^ 63.
Definition maxInt64 : Z := 2 ^ 63 - 1.

(** Two's-complement wrap-around into the [int64] range. *)
Definition wrap64 (z : Z) : Z := (z + 2 ^ 63) mod 2 ^ 64 - 2 ^ 63.

(** Unary minus on an [int64]. *)
Definition neg64 (z : Z) : Z := wrap64 (- z).

End Go.

(* ================================================================== *)
(** * Package [fuseops]: [common_op.go] *)
(* ================================================================== *)

Module Fuseops.
Import Go.

(** ** What the envelope talks to

    Every call the envelope makes to a collaborator (trace provider, base
    completion callback, debug sink, error logger, reply channel) is recorded,
    in order, as an event. *)

(** What is submitted on the reply channel: the encoded success response, or
    an error that the channel translates into the kernel's error code. *)
Inductive reply : Type :=
| ReplyBytes (msg : list byte)
| ReplyError (err : error).

Inductive event : Type :=
| EvStartSpan (desc : string)
| EvReportForTrace (span : string) (err : option error)
| EvConnFinished (err : option error)
| EvDebugLog (calldepth : Z) (format : string) (args : list goval)
| EvErrorLog (format : string) (args : list goval)
| EvReply (id : N) (r : reply).

(** Effectful code threads the list of events so far and may panic; the
    events recorded before a panic are kept. *)
Definition M (A : Type) : Type := list event -> outcome A * list event.

Definition ret {A} (a : A) : M A := fun t => (Ok a, t).

Definition bind {A B} (m : M A) (k : A -> M B) : M B :=
  fun t =>
    match m t with
    | (Ok a, t') => k a t'
    | (Panic msg, t') => (Panic msg, t')
    end.

Definition emit (e : event) : M unit := fun t => (Ok tt, (t ++ [e])%list).

(** A pure call that may panic, run inside [M]. *)
Definition lift {A} (r : outcome A) : M A := fun t => (r, t).

Notation "x <- m ;; k" := (bind m (fun x => k))
  (at level 61, m at next level, right associativity).
Notation "m ;; k" := (bind m (fun _ => k))
  (at level 61, right associativity).

(** [context.Context], as far as the envelope is concerned: the trace spans
    attached to it, innermost first. *)
Definition Context : Type := list string.

(** The completion callbacks: [func(error)]. *)
Definition finishFunc : Type := option error -> M unit.

(** [internalOp]: the op in which the envelope is embedded; [op_value] is
    what [reflect.ValueOf] sees of it, [kernelResponse] its encoded success
    response. *)
Record internalOp : Type := {
  op_value : Value;
  kernelResponse : list byte
}.

(** [type replyFunc func(uint64, []byte) error]. *)
Definition replyFunc : Type := N -> list byte -> option error.

(** Modelled from the spec: [fuseshim.Request], the kernel's raw request
    handle, whose declaration is not among the sources. It carries the
    request identifier assigned by the kernel and the reply channel,
    [Send(requestID, reply) -> error], which may fail. *)
Record Request : Type := {
  reqID : N;
  deliver : N -> reply -> option error
}.

(** [commonOp]. The struct declaration lists [ctx], [op], [fuseID],
    [sendReply], [debugLog] and [errorLogger]; [init] and [Respond] also
    assign and read [bazilReq] and [finished]. The two sinks may be nil
    ([None]); a configured sink is named by a handle. *)
Record commonOp : Type := {
  ctx : Context;
  op : internalOp;
  fuseID : N;
  sendReply : option replyFunc;
  debugLog : option nat;
  errorLogger : option nat;
  bazilReq : Request;
  finished : finishFunc
}.

(** ** [ShortDesc] *)

Definition prefix : string := "*fuseops.".
Definition suffix : string := "Op".

Definition obind {A B} (r : outcome A) (k : A -> outcome B) : outcome B :=
  match r with
  | Ok a => k a
  | Panic msg => Panic msg
  end.

(** [func (o *commonOp) ShortDesc() (desc string)]. The named result [desc]
    starts as the empty string and is assigned only in the branch where the
    op has an [Inode] field. *)
Definition ShortDesc (o : commonOp) : outcome string :=
  let v := op_value (op o) in
  let opName := TypeString v in
  obind
    (if HasPrefix opName prefix && HasSuffix opName suffix
     then slice opName (len prefix) (len opName - len suffix)
     else Ok opName)
    (fun opName =>
       obind (FieldByName v "Inode")
         (fun f =>
            match f with
            | Some x => Ok (Sprintf "%s(inode=%v)" [GoString opName; x])
            | None => Ok ""
            end)).

(** [o.op.ShortDesc()]: the op embeds the envelope ("the op in which this
    struct is embedded"), so the method the interface value dispatches to is
    the promoted [ShortDesc] of the envelope whose [op] field is that op. *)
Definition op_ShortDesc (o : commonOp) : M string := lift (ShortDesc o).

(** ** Collaborators *)

(** Modelled from the spec: [reqtrace.StartSpan], consumed from the trace
    provider, "StartSpan(context, label) -> (context, completionFn(error))":
    it opens a span under the label and hands back the context with the span
    attached and the span's completion function. *)
Definition StartSpan (c : Context) (desc : string) : M (Context * finishFunc) :=
  emit (EvStartSpan desc) ;;
  ret (desc :: c, fun err => emit (EvReportForTrace desc err)).

(** The connection's completion callback, as the dispatcher supplies it to
    [init]. *)
Definition connFinished : finishFunc := fun err => emit (EvConnFinished err).

(** One submission on the reply channel of a request handle; the result is
    the channel's verdict, [None] when delivered. *)
Definition Send (r : Request) (msg : reply) : M (option error) :=
  emit (EvReply (reqID r) msg) ;;
  ret (deliver r (reqID r) msg).

(** Modelled from the spec: the op's [respond] method, which [Respond] calls
    and which is not among the sources: "ask the variant to encode its
    success response and submit the resulting bytes together with the stored
    request identifier to the reply channel". *)
Definition op_respond (o : commonOp) : M (option error) :=
  Send (bazilReq o) (ReplyBytes (kernelResponse (op o))).

(** Modelled from the spec: [fuseshim.Request.RespondError], not among the
    sources: "submit an error-encoded reply (request identifier plus the
    error, translated into the kernel's native error representation by the
    reply channel)". *)
Definition RespondError (r : Request) (err : error) : M (option error) :=
  Send r (ReplyError err).

(** ** [init] *)

(** [func (o *commonOp) init(ctx, op, bazilReq, debugLog, errorLogger,
    finished)]: the receiver's other fields are left as they are. *)
Definition init (o : commonOp) (c : Context) (op0 : internalOp)
    (req : Request) (dbg : option nat) (elog : option nat)
    (fin : finishFunc) : M commonOp :=
  let o1 := {| ctx := c; op := op0; fuseID := fuseID o;
               sendReply := sendReply o; debugLog := dbg;
               errorLogger := elog; bazilReq := req; finished := fin |} in
  desc <- op_ShortDesc o1 ;;
  span <- StartSpan (ctx o1) desc ;;
  let reportForTrace := snd span in
  let prevFinish := finished o1 in
  ret {| ctx := fst span; op := op o1; fuseID := fuseID o1;
         sendReply := sendReply o1; debugLog := debugLog o1;
         errorLogger := errorLogger o1; bazilReq := bazilReq o1;
         finished := fun err => reportForTrace err ;; prevFinish err |}.

(** [func (o *commonOp) Context() context.Context]. *)
Definition ContextOf (o : commonOp) : Context := ctx o.

(** [func (o *commonOp) Logf(format string, v ...interface{})]. *)
Definition calldepth : Z := 2.

Definition Logf (o : commonOp) (format : string) (v : list goval) : M unit :=
  match debugLog o with
  | None => ret tt
  | Some _ => emit (EvDebugLog calldepth format v)
  end.

(** [o.errorLogger.Printf], the [Printf] method of [log.Logger]. *)
Definition Printf (format : string) (v : list goval) : M unit :=
  emit (EvErrorLog format v).

(** ** [Respond] *)

(** [func (o *commonOp) Respond(err error)]: no result; what [o.op.respond()]
    and [o.bazilReq.RespondError(err)] hand back is dropped. *)
Definition Respond (o : commonOp) (err : option error) : M unit :=
  finished o err ;;
  match err with
  | None =>
      op_respond o ;;
      ret tt
  | Some e =>
      match debugLog o with
      | Some _ =>
          desc <- op_ShortDesc o ;;
          Logf o "-> (%s) error: %v" [GoString desc; GoError e]
      | None => ret tt
      end ;;
      match errorLogger o with
      | Some _ =>
          desc <- op_ShortDesc o ;;
          Printf "(%s) error: %v" [GoString desc; GoError e]
      | None => ret tt
      end ;;
      RespondError (bazilReq o) e ;;
      ret tt
  end.

(** A sequence of [Respond] calls on one envelope. *)
Fixpoint RespondAll (o : commonOp) (errs : list (option error)) : M unit :=
  match errs with
  | [] => ret tt
  | err :: rest => Respond o err ;; RespondAll o rest
  end.

(** ** Reading a trace *)

Definition is_reply (e : event) : bool :=
  match e with EvReply _ _ => true | _ => false end.

Definition is_report (e : event) : bool :=
  match e with EvReportForTrace _ _ => true | _ => false end.

Definition is_log (e : event) : bool :=
  match e with EvDebugLog _ _ _ | EvErrorLog _ _ => true | _ => false end.

(** The messages that reached the reply channel, oldest first. *)
Fixpoint replies (t : list event) : list (N * reply) :=
  match t with
  | [] => []
  | EvReply id r :: rest => (id, r) :: replies rest
  | _ :: rest => replies rest
  end.

(** [sub] occurs in [s]. *)
Definition Contains (sub s : string) : Prop :=
  exists pre post, s = pre ++ sub ++ post.

(** The envelope with another reply channel behind its request handle. *)
Definition set_deliver (o : commonOp) (f : N -> reply -> option error)
  : commonOp :=
  {| ctx := ctx o; op := op o; fuseID := fuseID o; sendReply := sendReply o;
     debugLog := debugLog o; errorLogger := errorLogger o;
     bazilReq := {| reqID := reqID (bazilReq o); deliver := f |};
     finished := finished o |}.

(** ** Sample values *)

Definition blank : commonOp :=
  {| ctx := []; op := {| op_value := VOther "func" "func()"; kernelResponse := [] |};
     fuseID := 0%N; sendReply := None; debugLog := None; errorLogger := None;
     bazilReq := {| reqID := 0%N; deliver := fun _ _ => None |};
     finished := fun _ => ret tt |}.

Definition envelope_of (v : Value) : commonOp :=
  {| ctx := ctx blank; op := {| op_value := v; kernelResponse := [] |};
     fuseID := 0%N; sendReply := None; debugLog := None; errorLogger := None;
     bazilReq := bazilReq blank; finished := finished blank |}.

(** [&fuseops.GetInodeAttributesOp{Inode: 42}], the usual case of the
    comment in [ShortDesc]. *)
Definition getattrPtr : Value :=
  VPtr (VStruct "fuseops.GetInodeAttributesOp" [("Inode", GoUint64 42)]).

(** [&fuseops.InitOp{}]: an op without an [Inode] field. *)
Definition initPtr : Value := VPtr (VStruct "fuseops.InitOp" []).

(** Ops held by value (their types embed a pointer to the envelope). *)
Definition readFileStruct : Value :=
  VStruct "fuseops.ReadFileOp"
    [("Inode", GoUint64 42); ("Offset", GoInt 4096)].

Definition initStruct : Value := VStruct "fuseops.InitOp" [].

Definition statfsStruct : Value :=
  VStruct "samples.statFS" [("Path", GoString "/")].

Definition readFileOp : internalOp :=
  {| op_value := readFileStruct; kernelResponse := [x10; x00; x2a] |}.

Definition liveReq : Request :=
  {| reqID := 7%N; deliver := fun _ _ => None |}.

(** A request whose connection is gone: every submission fails. *)
Definition deadReq : Request :=
  {| reqID := 7%N; deliver := fun _ _ => Some "ENOTCONN" |}.

Definition initialised (req : Request) (dbg elog : option nat) : commonOp :=
  match fst (init blank ["root"] readFileOp req dbg elog connFinished []) with
  | Ok o => o
  | Panic _ => blank
  end.

(* ------------------------------------------------------------------ *)
(** ** Facts about [ShortDesc] *)
(* ------------------------------------------------------------------ *)

Lemma HasPrefix_split (s pre : string) :
  HasPrefix s pre = true -> exists r, s = pre ++ r.
Proof.
  unfold HasPrefix. revert s.
  induction pre as [|c pre IH]; intros s H.
  - exists s. reflexivity.
  - destruct s as [|c' s]; simpl in H; [discriminate|].
    destruct (Ascii.ascii_dec c c') as [->|]; [|discriminate].
    destruct (IH _ H) as [r ->]. exists r. reflexivity.
Qed.

(** A type name with the prefix and the suffix has at least eleven bytes,
    so the slice expression of [ShortDesc] stays in bounds. *)
Lemma convention_length (s : string) :
  HasPrefix s prefix = true -> HasSuffix s suffix = true ->
  (11 <= String.length s)%nat.
Proof.
  intros Hp Hs. destruct (HasPrefix_split _ _ Hp) as [r ->].
  unfold HasSuffix in Hs. apply andb_true_iff in Hs as [_ Hs].
  apply String.eqb_eq in Hs.
  destruct r as [|a [|b r]]; simpl in *; try discriminate; lia.
Qed.

Lemma slice_convention (s : string) :
  HasPrefix s prefix = true -> HasSuffix s suffix = true ->
  slice s (len prefix) (len s - len suffix)
  = Ok (String.substring 9 (String.length s - 11) s).
Proof.
  intros Hp Hs. pose proof (convention_length s Hp Hs) as Hl.
  unfold slice, len. simpl String.length.
  replace ((0 <=? Z.of_nat 9) && (Z.of_nat 9 <=? Z.of_nat (String.length s) - Z.of_nat 2)
           && (Z.of_nat (String.length s) - Z.of_nat 2 <=? Z.of_nat (String.length s)))%Z
    with true by (symmetry; rewrite !andb_true_iff, !Z.leb_le; lia).
  f_equal. f_equal; lia.
Qed.

(** The name [ShortDesc] works with after the convention test. *)
Definition bareName (typ : string) : string :=
  if HasPrefix typ prefix && HasSuffix typ suffix
  then String.substring 9 (String.length typ - 11) typ
  else typ.

(** On an op held by value [ShortDesc] returns: the name and the inode when
    the struct has an [Inode] field, the empty string when it has none. *)
Lemma ShortDesc_struct (o : commonOp) (typ : string)
    (fields : list (string * goval)) :
  op_value (op o) = VStruct typ fields ->
  ShortDesc o =
  Ok (match lookupField "Inode" fields with
      | Some x => bareName typ ++ "(inode=" ++ fmt_v x ++ ")"
      | None => ""
      end).
Proof.
  intros Hv. unfold ShortDesc, bareName. rewrite Hv. simpl TypeString.
  destruct (HasPrefix typ prefix && HasSuffix typ suffix) eqn:E.
  - apply andb_true_iff in E as [Hp Hs].
    rewrite (slice_convention _ Hp Hs). simpl.
    destruct (lookupField "Inode" fields); reflexivity.
  - simpl. destruct (lookupField "Inode" fields); reflexivity.
Qed.

(** On an op held by pointer the call of [FieldByName] panics, whatever the
    struct behind the pointer is. *)
Lemma ShortDesc_pointer (o : commonOp) (elem : Value) :
  op_value (op o) = VPtr elem ->
  ShortDesc o
  = Panic "reflect: call of reflect.Value.FieldByName on ptr Value".
Proof.
  intros Hv. unfold ShortDesc. rewrite Hv.
  destruct (HasPrefix (TypeString (VPtr elem)) prefix
            && HasSuffix (TypeString (VPtr elem)) suffix) eqn:E.
  - apply andb_true_iff in E as [Hp Hs].
    rewrite (slice_convention _ Hp Hs). reflexivity.
  - reflexivity.
Qed.

(* ------------------------------------------------------------------ *)
(** ** Facts about [init] and [Respond] *)
(* ------------------------------------------------------------------ *)

(** What [init] leaves behind when it returns: the op has a description,
    one span was opened under it, and [finished] is the wrapper. *)
Lemma init_inv o0 c op0 req dbg elog fin t0 o t1 :
  init o0 c op0 req dbg elog fin t0 = (Ok o, t1) ->
  exists d,
    ShortDesc o = Ok d /\
    t1 = (t0 ++ [EvStartSpan d])%list /\
    o = {| ctx := d :: c; op := op0; fuseID := fuseID o0;
           sendReply := sendReply o0; debugLog := dbg; errorLogger := elog;
           bazilReq := req;
           finished := fun err => emit (EvReportForTrace d err) ;; fin err |}.
Proof.
  unfold init, op_ShortDesc, lift, bind.
  destruct (ShortDesc _) as [d|msg] eqn:E; simpl; intros H.
  - inversion H; subst; clear H. exists d. repeat split. exact E.
  - discriminate.
Qed.

Lemma append_empty_r (s : string) : s ++ "" = s.
Proof. induction s as [|a s IH]; simpl; [reflexivity|now rewrite IH]. Qed.

(** The two lines of the error path, as the sinks render them. *)
Lemma Sprintf_debug_line (d : string) (e : error) :
  Sprintf "-> (%s) error: %v" [GoString d; GoError e]
  = "-> (" ++ d ++ ") error: " ++ e.
Proof. simpl. now rewrite append_empty_r. Qed.

Lemma Sprintf_error_line (d : string) (e : error) :
  Sprintf "(%s) error: %v" [GoString d; GoError e]
  = "(" ++ d ++ ") error: " ++ e.
Proof. simpl. now rewrite append_empty_r. Qed.

Lemma Contains_middle (pre sub post : string) :
  Contains sub (pre ++ sub ++ post).
Proof. exists pre, post. reflexivity. Qed.

Lemma append_assoc (a b c : string) : (a ++ b) ++ c = a ++ b ++ c.
Proof. induction a as [|x a IH]; simpl; [reflexivity|now rewrite IH]. Qed.

Lemma Contains_end (a b c sub : string) :
  Contains sub (a ++ b ++ c ++ sub).
Proof.
  exists (a ++ b ++ c), "". now rewrite append_empty_r, !append_assoc.
Qed.

(** The events the error path writes to the sinks that are configured. *)
Definition log_events (dbg elog : option nat) (d : string) (e : error)
  : list event :=
  ((match dbg with
    | Some _ =>
        [EvDebugLog 2 "-> (%s) error: %v" [GoString d; GoError e]]
    | None => []
    end)
   ++
   (match elog with
    | Some _ => [EvErrorLog "(%s) error: %v" [GoString d; GoError e]]
    | None => []
    end))%list.

(** What one call of [Respond] submits on the reply channel. *)
Definition payload (o : commonOp) (err : option error) : reply :=
  match err with
  | None => ReplyBytes (kernelResponse (op o))
  | Some e => ReplyError e
  end.

(** The events of one [Respond] call on an envelope that [init] built around
    the connection's callback. *)
Definition respond_events (o : commonOp) (d : string) (err : option error)
  : list event :=
  ([EvReportForTrace d err; EvConnFinished err]
   ++ (match err with
       | None => []
       | Some e => log_events (debugLog o) (errorLogger o) d e
       end)
   ++ [EvReply (reqID (bazilReq o)) (payload o err)])%list.

Lemma Respond_run o d err t :
  ShortDesc o = Ok d ->
  finished o = (fun err => emit (EvReportForTrace d err) ;; connFinished err) ->
  Respond o err t = (Ok tt, (t ++ respond_events o d err)%list).
Proof.
  intros Hd Hf.
  unfold Respond, respond_events, log_events, payload, bind.
  rewrite Hf.
  unfold op_respond, RespondError, Send, Logf, Printf, op_ShortDesc, lift,
    connFinished, bind, emit, ret, calldepth.
  rewrite Hd.
  destruct err as [e|]; destruct (debugLog o); destruct (errorLogger o);
    simpl; rewrite <- ?app_assoc; reflexivity.
Qed.

Lemma init_Respond o0 c op0 req dbg elog t0 o t1 :
  init o0 c op0 req dbg elog connFinished t0 = (Ok o, t1) ->
  exists d,
    ShortDesc o = Ok d /\
    t1 = (t0 ++ [EvStartSpan d])%list /\
    op o = op0 /\ bazilReq o = req /\
    debugLog o = dbg /\ errorLogger o = elog /\
    forall err t,
      Respond o err t = (Ok tt, (t ++ respond_events o d err)%list).
Proof.
  intros H. destruct (init_inv _ _ _ _ _ _ _ _ _ _ H) as (d & Hd & Ht & Ho).
  exists d. split; [exact Hd|]. split; [exact Ht|].
  rewrite Ho at 1 2 3 4. simpl. repeat split.
  intros err t. apply Respond_run; [exact Hd|]. rewrite Ho. reflexivity.
Qed.

(** [init] calls [ShortDesc]: around an op held by pointer it panics before
    a span is opened, so no envelope comes out of it. *)
Lemma init_pointer_op o0 c op0 req dbg elog fin t0 elem :
  op_value op0 = VPtr elem ->
  init o0 c op0 req dbg elog fin t0
  = (Panic "reflect: call of reflect.Value.FieldByName on ptr Value", t0).
Proof.
  intros Hv. unfold init, op_ShortDesc, lift, bind.
  rewrite (ShortDesc_pointer _ elem) by exact Hv. reflexivity.
Qed.

Lemma replies_app (a b : list event) :
  replies (a ++ b)%list = (replies a ++ replies b)%list.
Proof.
  induction a as [|e a IH]; simpl; [reflexivity|].
  destruct e; simpl; rewrite ?IH; reflexivity.
Qed.

Lemma replies_log_events dbg elog d e : replies (log_events dbg elog d e) = [].
Proof. destruct dbg, elog; reflexivity. Qed.

Lemma replies_respond_events o d err :
  replies (respond_events o d err) = [(reqID (bazilReq o), payload o err)].
Proof.
  unfold respond_events. simpl. rewrite replies_app.
  destruct err; [rewrite replies_log_events|]; reflexivity.
Qed.

Lemma filter_report_log_events dbg elog d e :
  filter is_report (log_events dbg elog d e) = [] /\
  filter is_reply (log_events dbg elog d e) = [] /\
  forallb is_log (log_events dbg elog d e) = true.
Proof. destruct dbg, elog; repeat split. Qed.

(** A sequence of calls on such an envelope: every call returns and adds
    its own events. *)
Lemma RespondAll_run o d errs :
  ShortDesc o = Ok d ->
  finished o = (fun err => emit (EvReportForTrace d err) ;; connFinished err) ->
  forall t,
    RespondAll o errs t
    = (Ok tt, (t ++ List.concat (map (respond_events o d) errs))%list).
Proof.
  intros Hd Hf. induction errs as [|err errs IH]; intros t; simpl.
  - unfold ret. rewrite app_nil_r. reflexivity.
  - unfold bind. rewrite (Respond_run o d err t Hd Hf). rewrite IH.
    rewrite <- app_assoc. reflexivity.
Qed.

Lemma replies_concat o d errs :
  replies (List.concat (map (respond_events o d) errs))
  = map (fun err => (reqID (bazilReq o), payload o err)) errs.
Proof.
  induction errs as [|err errs IH]; [reflexivity|].
  cbn [map List.concat].
  rewrite replies_app, replies_respond_events, IH. reflexivity.
Qed.

Lemma initialised_init (req : Request) (dbg elog : option nat) :
  init blank ["root"] readFileOp req dbg elog connFinished []
  = (Ok (initialised req dbg elog),
     [EvStartSpan "fuseops.ReadFileOp(inode=42)"]).
Proof. reflexivity. Qed.

(* ------------------------------------------------------------------ *)
(** ** The short description *)
(* ------------------------------------------------------------------ *)

(** C3. For an op without an [Inode] field [ShortDesc] does not return the
    bare operation name: the named result is never assigned on that path, so
    an op held by value gets the empty string, and an op held by pointer
    makes [FieldByName] panic. *)
Theorem ShortDesc_without_Inode :
  ShortDesc (envelope_of initStruct) = Ok "" /\
  lookupField "Inode" [("Path", GoString "/")] = None /\
  ShortDesc (envelope_of statfsStruct) = Ok "" /\
  ShortDesc (envelope_of initPtr)
  = Panic "reflect: call of reflect.Value.FieldByName on ptr Value".
Proof. repeat split. Qed.

(** C7. On [&fuseops.GetInodeAttributesOp{Inode: 42}], whose type name
    matches the convention, [ShortDesc] panics instead of returning
    [GetInodeAttributes(inode=42)]; on an op whose type name does not match
    the convention the raw name is kept when there is an [Inode] field and
    lost (the description is empty) when there is none. *)
Theorem ShortDesc_convention :
  TypeString getattrPtr = "*fuseops.GetInodeAttributesOp" /\
  HasPrefix (TypeString getattrPtr) prefix
  && HasSuffix (TypeString getattrPtr) suffix = true /\
  ShortDesc (envelope_of getattrPtr)
  = Panic "reflect: call of reflect.Value.FieldByName on ptr Value" /\
  HasPrefix (TypeString statfsStruct) prefix = false /\
  ShortDesc (envelope_of statfsStruct) = Ok "" /\
  ShortDesc (envelope_of readFileStruct) = Ok "fuseops.ReadFileOp(inode=42)".
Proof. repeat split. Qed.

(* ------------------------------------------------------------------ *)
(** ** The completion contract *)
(* ------------------------------------------------------------------ *)

(** C1, as the spec states it, fails: an envelope answers as often as
    [Respond] is called. No call gives no message and two calls give two
    messages under the same request identifier. *)
Lemma Respond_twice_replies_twice :
  replies (snd (RespondAll (initialised liveReq None None) [] [])) = [] /\
  replies (snd (RespondAll (initialised liveReq None None) [None; None] []))
  = [(7%N, ReplyBytes [x10; x00; x2a]); (7%N, ReplyBytes [x10; x00; x2a])] /\
  List.length
    (replies (snd (RespondAll (initialised liveReq None None) [None; None] [])))
  <> 1%nat.
Proof. repeat split. simpl. discriminate. Qed.

(** C1, amended. A sequence of [Respond] calls on one envelope puts one
    message per call on the reply channel, in call order, each under the
    envelope's request identifier; so exactly one message is sent exactly
    when [Respond] is called once. *)
Theorem RespondAll_one_reply_per_call
    o0 c op0 req dbg elog t0 o t1 (errs : list (option error)) t :
  init o0 c op0 req dbg elog connFinished t0 = (Ok o, t1) ->
  exists es,
    RespondAll o errs t = (Ok tt, (t ++ es)%list) /\
    replies es = map (fun err => (reqID req, payload o err)) errs /\
    List.length (replies es) = List.length errs /\
    Forall (fun m => fst m = reqID req) (replies es).
Proof.
  intros H.
  destruct (init_inv _ _ _ _ _ _ _ _ _ _ H) as (d & Hd & _ & Ho).
  assert (Hf : finished o
               = (fun err => emit (EvReportForTrace d err) ;; connFinished err))
    by (rewrite Ho; reflexivity).
  assert (Hr : bazilReq o = req) by (rewrite Ho; reflexivity).
  exists (List.concat (map (respond_events o d) errs)).
  rewrite (RespondAll_run o d errs Hd Hf), replies_concat, Hr.
  split; [reflexivity|]. split; [reflexivity|]. split.
  - apply length_map.
  - apply Forall_forall. intros m Hm. apply in_map_iff in Hm.
    destruct Hm as (err & <- & _). reflexivity.
Qed.

Lemma RespondAll_one_reply_per_call_witness :
  exists es,
    RespondAll (initialised liveReq (Some 0%nat) None)
      [None; Some "EIO"; None] []
    = (Ok tt, ([] ++ es)%list) /\
    replies es
    = map (fun err =>
             (reqID liveReq,
              payload (initialised liveReq (Some 0%nat) None) err))
        [None; Some "EIO"; None] /\
    List.length (replies es) = List.length [None; Some "EIO"; None] /\
    Forall (fun m => fst m = reqID liveReq) (replies es).
Proof.
  exact (RespondAll_one_reply_per_call blank ["root"] readFileOp liveReq
           (Some 0%nat) None [] _ _ [None; Some "EIO"; None] []
           (initialised_init liveReq (Some 0%nat) None)).
Defined.

(** C2. One call of [Respond] performs one write to the reply channel (the
    op's encoded success response when the error is nil, an error reply
    otherwise) and one completion of the span that [init] opened; the
    completion comes first, then the log lines, then the reply. *)
Theorem Respond_once_effects
    o0 c op0 req dbg elog t0 o t1 (err : option error) t :
  init o0 c op0 req dbg elog connFinished t0 = (Ok o, t1) ->
  exists d logs es,
    t1 = (t0 ++ [EvStartSpan d])%list /\
    Respond o err t = (Ok tt, (t ++ es)%list) /\
    es = ([EvReportForTrace d err; EvConnFinished err] ++ logs
          ++ [EvReply (reqID req)
                (match err with
                 | None => ReplyBytes (kernelResponse op0)
                 | Some e => ReplyError e
                 end)])%list /\
    forallb is_log logs = true /\
    List.length (filter is_reply es) = 1%nat /\
    List.length (filter is_report es) = 1%nat.
Proof.
  intros H.
  destruct (init_Respond _ _ _ _ _ _ _ _ _ H)
    as (d & _ & Ht & Hop & Hreq & _ & _ & Hrun).
  exists d.
  exists (match err with
          | None => []
          | Some e => log_events (debugLog o) (errorLogger o) d e
          end).
  exists (respond_events o d err).
  split; [exact Ht|]. split; [apply Hrun|].
  unfold respond_events, payload. rewrite Hop, Hreq.
  split; [reflexivity|].
  destruct err as [e|];
    [destruct (debugLog o), (errorLogger o)|]; repeat split.
Qed.

Lemma Respond_once_effects_witness :
  exists d logs es,
    [EvStartSpan "fuseops.ReadFileOp(inode=42)"]
    = ([] ++ [EvStartSpan d])%list /\
    Respond (initialised liveReq (Some 0%nat) (Some 1%nat)) (Some "EIO")
      [EvStartSpan "fuseops.ReadFileOp(inode=42)"]
    = (Ok tt, ([EvStartSpan "fuseops.ReadFileOp(inode=42)"] ++ es)%list) /\
    es = ([EvReportForTrace d (Some "EIO"); EvConnFinished (Some "EIO")]
          ++ logs ++ [EvReply (reqID liveReq) (ReplyError "EIO")])%list /\
    forallb is_log logs = true /\
    List.length (filter is_reply es) = 1%nat /\
    List.length (filter is_report es) = 1%nat.
Proof.
  exact (Respond_once_effects blank ["root"] readFileOp liveReq
           (Some 0%nat) (Some 1%nat) [] _ _ (Some "EIO")
           [EvStartSpan "fuseops.ReadFileOp(inode=42)"]
           (initialised_init liveReq (Some 0%nat) (Some 1%nat))).
Defined.

(** The claim C4 about one envelope and one call: a submission that the
    reply channel refuses shows in what [Respond] hands to its caller. *)
Definition propagates_delivery_failure (o : commonOp) (err : option error)
  : Prop :=
  forall t failure,
    deliver (bazilReq o) (reqID (bazilReq o)) (payload o err) = Some failure ->
    fst (Respond o err t) <> Ok tt.

(** C4, as the spec states it, fails: with the connection gone, both the
    success reply and the error reply are refused by the channel, and
    [Respond] returns to its caller as it does after a delivery. *)
Lemma Respond_drops_delivery_failure :
  deliver deadReq 7%N (ReplyBytes [x10; x00; x2a]) = Some "ENOTCONN" /\
  deliver deadReq 7%N (ReplyError "EIO") = Some "ENOTCONN" /\
  Respond (initialised deadReq None None) None []
  = (Ok tt,
     [EvReportForTrace "fuseops.ReadFileOp(inode=42)" None;
      EvConnFinished None; EvReply 7%N (ReplyBytes [x10; x00; x2a])]) /\
  Respond (initialised deadReq None None) (Some "EIO") []
  = (Ok tt,
     [EvReportForTrace "fuseops.ReadFileOp(inode=42)" (Some "EIO");
      EvConnFinished (Some "EIO"); EvReply 7%N (ReplyError "EIO")]) /\
  ~ propagates_delivery_failure (initialised deadReq None None) None /\
  ~ propagates_delivery_failure (initialised deadReq None None) (Some "EIO").
Proof.
  repeat split.
  - intros H. apply (H [] "ENOTCONN"); reflexivity.
  - intros H. apply (H [] "ENOTCONN"); reflexivity.
Qed.

(** C4, amended. A delivery failure is not retried and does not reach the
    caller: [Respond] has no result, it submits once on either path,
    returns normally, and behaves the same whatever the reply channel
    answers. *)
Theorem Respond_ignores_delivery_failure
    o0 c op0 req dbg elog t0 o t1 (err : option error) t
    (chan : N -> reply -> option error) :
  init o0 c op0 req dbg elog connFinished t0 = (Ok o, t1) ->
  exists es,
    Respond o err t = (Ok tt, (t ++ es)%list) /\
    replies es = [(reqID req, payload o err)] /\
    Respond (set_deliver o chan) err t = (Ok tt, (t ++ es)%list).
Proof.
  intros H.
  destruct (init_inv _ _ _ _ _ _ _ _ _ _ H) as (d & Hd & _ & Ho).
  assert (Hf : finished o
               = (fun err => emit (EvReportForTrace d err) ;; connFinished err))
    by (rewrite Ho; reflexivity).
  assert (Hr : bazilReq o = req) by (rewrite Ho; reflexivity).
  exists (respond_events o d err).
  split; [apply Respond_run; assumption|].
  split; [rewrite replies_respond_events, Hr; reflexivity|].
  apply (Respond_run (set_deliver o chan) d err t); assumption.
Qed.

Lemma Respond_ignores_delivery_failure_witness :
  exists es,
    Respond (initialised liveReq None (Some 1%nat)) (Some "EIO") []
    = (Ok tt, ([] ++ es)%list) /\
    replies es
    = [(reqID liveReq,
        payload (initialised liveReq None (Some 1%nat)) (Some "EIO"))] /\
    Respond
      (set_deliver (initialised liveReq None (Some 1%nat))
         (fun _ _ => Some "ENOTCONN"))
      (Some "EIO") []
    = (Ok tt, ([] ++ es)%list).
Proof.
  exact (Respond_ignores_delivery_failure blank ["root"] readFileOp liveReq
           None (Some 1%nat) [] _ _ (Some "EIO") []
           (fun _ _ => Some "ENOTCONN")
           (initialised_init liveReq None (Some 1%nat))).
Defined.

(** C5. For a non-nil error, [Respond] submits an error reply under the
    envelope's request identifier, after writing to each configured sink,
    independently of the other, one line that contains the short description
    and the error text; with both sinks absent it still submits the reply
    once and returns normally. *)
Theorem Respond_error_path
    o0 c op0 req dbg elog t0 o t1 (e : error) t :
  init o0 c op0 req dbg elog connFinished t0 = (Ok o, t1) ->
  exists d,
    ShortDesc o = Ok d /\
    Respond o (Some e) t
    = (Ok tt,
       (t ++ [EvReportForTrace d (Some e); EvConnFinished (Some e)]
          ++ (match dbg with
              | Some _ =>
                  [EvDebugLog 2 "-> (%s) error: %v" [GoString d; GoError e]]
              | None => []
              end)
          ++ (match elog with
              | Some _ =>
                  [EvErrorLog "(%s) error: %v" [GoString d; GoError e]]
              | None => []
              end)
          ++ [EvReply (reqID req) (ReplyError e)])%list) /\
    Sprintf "-> (%s) error: %v" [GoString d; GoError e]
    = "-> (" ++ d ++ ") error: " ++ e /\
    Sprintf "(%s) error: %v" [GoString d; GoError e]
    = "(" ++ d ++ ") error: " ++ e /\
    Contains d (Sprintf "-> (%s) error: %v" [GoString d; GoError e]) /\
    Contains e (Sprintf "-> (%s) error: %v" [GoString d; GoError e]) /\
    Contains d (Sprintf "(%s) error: %v" [GoString d; GoError e]) /\
    Contains e (Sprintf "(%s) error: %v" [GoString d; GoError e]) /\
    (dbg = None -> elog = None ->
     Respond o (Some e) t
     = (Ok tt,
        (t ++ [EvReportForTrace d (Some e); EvConnFinished (Some e);
               EvReply (reqID req) (ReplyError e)])%list)).
Proof.
  intros H.
  destruct (init_Respond _ _ _ _ _ _ _ _ _ H)
    as (d & Hd & _ & _ & Hreq & Hdbg & Helog & Hrun).
  exists d. split; [exact Hd|].
  assert (Hr : Respond o (Some e) t
               = (Ok tt,
                  (t ++ [EvReportForTrace d (Some e); EvConnFinished (Some e)]
                     ++ log_events dbg elog d e
                     ++ [EvReply (reqID req) (ReplyError e)])%list)).
  { rewrite Hrun. unfold respond_events, payload.
    rewrite Hreq, Hdbg, Helog. reflexivity. }
  split.
  { rewrite Hr. unfold log_events. rewrite <- !app_assoc. reflexivity. }
  rewrite Sprintf_debug_line, Sprintf_error_line.
  split; [reflexivity|]. split; [reflexivity|].
  split; [apply (Contains_middle "-> (" d (") error: " ++ e))|].
  split; [apply (Contains_end "-> (" d ") error: " e)|].
  split; [apply (Contains_middle "(" d (") error: " ++ e))|].
  split; [apply (Contains_end "(" d ") error: " e)|].
  intros -> ->. exact Hr.
Qed.

Lemma Respond_error_path_witness :
  exists d,
    ShortDesc (initialised liveReq (Some 0%nat) (Some 1%nat)) = Ok d /\
    Respond (initialised liveReq (Some 0%nat) (Some 1%nat)) (Some "EIO") []
    = (Ok tt,
       ([] ++ [EvReportForTrace d (Some "EIO"); EvConnFinished (Some "EIO")]
           ++ [EvDebugLog 2 "-> (%s) error: %v" [GoString d; GoError "EIO"]]
           ++ [EvErrorLog "(%s) error: %v" [GoString d; GoError "EIO"]]
           ++ [EvReply (reqID liveReq) (ReplyError "EIO")])%list) /\
    Sprintf "-> (%s) error: %v" [GoString d; GoError "EIO"]
    = "-> (" ++ d ++ ") error: " ++ "EIO" /\
    Sprintf "(%s) error: %v" [GoString d; GoError "EIO"]
    = "(" ++ d ++ ") error: " ++ "EIO" /\
    Contains d (Sprintf "-> (%s) error: %v" [GoString d; GoError "EIO"]) /\
    Contains "EIO" (Sprintf "-> (%s) error: %v" [GoString d; GoError "EIO"]) /\
    Contains d (Sprintf "(%s) error: %v" [GoString d; GoError "EIO"]) /\
    Contains "EIO" (Sprintf "(%s) error: %v" [GoString d; GoError "EIO"]) /\
    (Some 0%nat = None -> Some 1%nat = None ->
     Respond (initialised liveReq (Some 0%nat) (Some 1%nat)) (Some "EIO") []
     = (Ok tt,
        ([] ++ [EvReportForTrace d (Some "EIO"); EvConnFinished (Some "EIO");
                EvReply (reqID liveReq) (ReplyError "EIO")])%list)).
Proof.
  exact (Respond_error_path blank ["root"] readFileOp liveReq
           (Some 0%nat) (Some 1%nat) [] _ _ "EIO" []
           (initialised_init liveReq (Some 0%nat) (Some 1%nat))).
Defined.

(** C6. After [init] the completion callback is a wrapper: called with an
    error value it first calls the span's completion function with that
    value and then the base callback it was given, with the same value; and
    [Respond] starts by calling the wrapper with the error value it got. *)
Theorem init_chains_completion
    o0 c op0 req dbg elog (fin : finishFunc) t0 o t1 :
  init o0 c op0 req dbg elog fin t0 = (Ok o, t1) ->
  exists d,
    t1 = (t0 ++ [EvStartSpan d])%list /\
    (forall err t,
       finished o err t = fin err (t ++ [EvReportForTrace d err])%list) /\
    exists rest : option error -> M unit,
      forall err, Respond o err = (finished o err ;; rest err).
Proof.
  intros H.
  destruct (init_inv _ _ _ _ _ _ _ _ _ _ H) as (d & _ & Ht & Ho).
  exists d. split; [exact Ht|]. split.
  - intros err t. rewrite Ho. reflexivity.
  - eexists (fun err => match err with None => _ | Some e => _ end).
    intros err. unfold Respond. destruct err; reflexivity.
Qed.

Lemma init_chains_completion_witness :
  exists d,
    [EvStartSpan "fuseops.ReadFileOp(inode=42)"]
    = ([] ++ [EvStartSpan d])%list /\
    (forall err t,
       finished (initialised liveReq None None) err t
       = connFinished err (t ++ [EvReportForTrace d err])%list) /\
    exists rest : option error -> M unit,
      forall err,
        Respond (initialised liveReq None None) err
        = (finished (initialised liveReq None None) err ;; rest err).
Proof.
  exact (init_chains_completion blank ["root"] readFileOp liveReq None None
           connFinished [] _ _ (initialised_init liveReq None None)).
Defined.

(** C10. On the success path nothing is written to the debug sink or to the
    error logger, also when both are configured; a call of [Respond] that
    writes a log line was given a non-nil error. *)
Theorem Respond_success_logs_nothing
    o0 c op0 req dbg elog t0 o t1 t :
  init o0 c op0 req dbg elog connFinished t0 = (Ok o, t1) ->
  exists d,
    Respond o None t
    = (Ok tt,
       (t ++ [EvReportForTrace d None; EvConnFinished None;
              EvReply (reqID req) (ReplyBytes (kernelResponse op0))])%list) /\
    filter is_log
      [EvReportForTrace d None; EvConnFinished None;
       EvReply (reqID req) (ReplyBytes (kernelResponse op0))] = [] /\
    forall err es,
      Respond o err t = (Ok tt, (t ++ es)%list) ->
      existsb is_log es = true -> err <> None.
Proof.
  intros H.
  destruct (init_Respond _ _ _ _ _ _ _ _ _ H)
    as (d & _ & _ & Hop & Hreq & _ & _ & Hrun).
  exists d.
  assert (Hnil : respond_events o d None
                 = [EvReportForTrace d None; EvConnFinished None;
                    EvReply (reqID req) (ReplyBytes (kernelResponse op0))])
    by (unfold respond_events, payload; rewrite Hop, Hreq; reflexivity).
  split; [rewrite Hrun, Hnil; reflexivity|]. split; [reflexivity|].
  intros err es Hes Hlog ->.
  rewrite Hrun, Hnil in Hes. inversion Hes as [Happ].
  apply app_inv_head in Happ. subst es. discriminate.
Qed.

Lemma Respond_success_logs_nothing_witness :
  exists d,
    Respond (initialised liveReq (Some 0%nat) (Some 1%nat)) None []
    = (Ok tt,
       ([] ++ [EvReportForTrace d None; EvConnFinished None;
               EvReply (reqID liveReq)
                 (ReplyBytes (kernelResponse readFileOp))])%list) /\
    filter is_log
      [EvReportForTrace d None; EvConnFinished None;
       EvReply (reqID liveReq) (ReplyBytes (kernelResponse readFileOp))]
    = [] /\
    forall err es,
      Respond (initialised liveReq (Some 0%nat) (Some 1%nat)) err []
      = (Ok tt, ([] ++ es)%list) ->
      existsb is_log es = true -> err <> None.
Proof.
  exact (Respond_success_logs_nothing blank ["root"] readFileOp liveReq
           (Some 0%nat) (Some 1%nat) [] _ _ []
           (initialised_init liveReq (Some 0%nat) (Some 1%nat))).
Defined.

(* ------------------------------------------------------------------ *)
(** ** Further properties of the envelope *)
(* ------------------------------------------------------------------ *)

Lemma substring_full (s : string) : String.substring 0 (String.length s) s = s.
Proof. induction s as [|a s IH]; simpl; [reflexivity|now rewrite IH]. Qed.

Lemma substring_split (s : string) :
  forall n, (n <= String.length s)%nat ->
  s = String.substring 0 n s ++ String.substring n (String.length s - n) s.
Proof.
  induction s as [|a s IH]; intros n Hn.
  - destruct n; [reflexivity|simpl in Hn; lia].
  - destruct n as [|n].
    + change (String.substring 0 0 (String a s)) with "".
      rewrite Nat.sub_0_r, substring_full. reflexivity.
    + simpl in Hn. simpl. f_equal. apply IH. lia.
Qed.

Lemma substring_skip (p s : string) (n m : nat) :
  String.substring (String.length p + n) m (p ++ s) = String.substring n m s.
Proof. induction p as [|a p IH]; simpl; [reflexivity|exact IH]. Qed.

Lemma length_append (a b : string) :
  String.length (a ++ b) = (String.length a + String.length b)%nat.
Proof. induction a as [|x a IH]; simpl; [reflexivity|now rewrite IH]. Qed.

(** A name with the prefix and the suffix is the prefix, the bare name and
    the suffix. *)
Lemma bareName_roundtrip (typ : string) :
  HasPrefix typ prefix = true -> HasSuffix typ suffix = true ->
  typ = prefix ++ String.substring 9 (String.length typ - 11) typ ++ suffix.
Proof.
  intros Hp Hs. pose proof (convention_length typ Hp Hs) as Hl.
  destruct (HasPrefix_split _ _ Hp) as [r ->].
  unfold HasSuffix in Hs. apply andb_true_iff in Hs as [_ Hs].
  apply String.eqb_eq in Hs.
  rewrite length_append in Hs, Hl |- *.
  change (String.length prefix) with 9%nat in *.
  change (String.length suffix) with 2%nat in *.
  replace (9 + String.length r - 2)%nat
    with (String.length prefix + (String.length r - 2))%nat in Hs
    by (change (String.length prefix) with 9%nat; lia).
  rewrite substring_skip in Hs.
  replace (9 + String.length r - 11)%nat with (String.length r - 2)%nat by lia.
  change 9%nat with (String.length prefix + 0)%nat at 1.
  rewrite substring_skip. f_equal.
  rewrite (substring_split r (String.length r - 2)) at 1 by lia.
  replace (String.length r - (String.length r - 2))%nat with 2%nat by lia.
  now rewrite Hs.
Qed.



(** X2. For an op held by value [ShortDesc] returns normally: with an
    [Inode] field it is the name, then the inode in parentheses, where the
    name is the type name, stripped of prefix and suffix only when it has
    both; without an [Inode] field it is the empty string. *)
Theorem ShortDesc_value_op (o : commonOp) (typ : string)
    (fields : list (string * goval)) :
  op_value (op o) = VStruct typ fields ->
  (forall x, lookupField "Inode" fields = Some x ->
     ShortDesc o = Ok (bareName typ ++ "(inode=" ++ fmt_v x ++ ")")) /\
  (lookupField "Inode" fields = None -> ShortDesc o = Ok "") /\
  (HasPrefix typ prefix = false \/ HasSuffix typ suffix = false ->
   bareName typ = typ) /\
  (HasPrefix typ prefix = true -> HasSuffix typ suffix = true ->
   typ = prefix ++ bareName typ ++ suffix).
Proof.
  intros Hv. pose proof (ShortDesc_struct o typ fields Hv) as H.
  split; [intros x Hx; now rewrite Hx in H|].
  split; [intros Hx; now rewrite Hx in H|].
  unfold bareName. split.
  - intros [-> | ->]; [reflexivity|now rewrite andb_false_r].
  - intros Hp Hs. rewrite Hp, Hs. simpl. apply bareName_roundtrip; assumption.
Qed.

Lemma ShortDesc_value_op_witness :
  (forall x,
     lookupField "Inode" [("Inode", GoUint64 42); ("Offset", GoInt 4096)]
     = Some x ->
     ShortDesc (envelope_of readFileStruct)
     = Ok (bareName "fuseops.ReadFileOp" ++ "(inode=" ++ fmt_v x ++ ")")) /\
  (lookupField "Inode" [("Inode", GoUint64 42); ("Offset", GoInt 4096)]
   = None ->
   ShortDesc (envelope_of readFileStruct) = Ok "") /\
  (HasPrefix "fuseops.ReadFileOp" prefix = false \/
   HasSuffix "fuseops.ReadFileOp" suffix = false ->
   bareName "fuseops.ReadFileOp" = "fuseops.ReadFileOp") /\
  (HasPrefix "fuseops.ReadFileOp" prefix = true ->
   HasSuffix "fuseops.ReadFileOp" suffix = true ->
   "fuseops.ReadFileOp" = prefix ++ bareName "fuseops.ReadFileOp" ++ suffix).
Proof.
  exact (ShortDesc_value_op (envelope_of readFileStruct) "fuseops.ReadFileOp"
           [("Inode", GoUint64 42); ("Offset", GoInt 4096)] eq_refl).
Defined.

(** X3. An op held by pointer has no description: [ShortDesc] panics in
    [FieldByName], whatever struct is behind the pointer and whether or not
    it has an [Inode] field; and [init] around such an op panics before it
    opens a span, leaving the events as they were. *)
Theorem pointer_op_has_no_description (o : commonOp) (elem : Value) :
  op_value (op o) = VPtr elem ->
  ShortDesc o
  = Panic "reflect: call of reflect.Value.FieldByName on ptr Value" /\
  forall o0 c req dbg elog fin t0,
    init o0 c (op o) req dbg elog fin t0
    = (Panic "reflect: call of reflect.Value.FieldByName on ptr Value", t0).
Proof.
  intros Hv. split; [exact (ShortDesc_pointer o elem Hv)|].
  intros. exact (init_pointer_op _ _ _ _ _ _ _ _ elem Hv).
Qed.

Lemma pointer_op_has_no_description_witness :
  ShortDesc (envelope_of getattrPtr)
  = Panic "reflect: call of reflect.Value.FieldByName on ptr Value" /\
  forall o0 c req dbg elog fin t0,
    init o0 c (op (envelope_of getattrPtr)) req dbg elog fin t0
    = (Panic "reflect: call of reflect.Value.FieldByName on ptr Value", t0).
Proof.
  exact (pointer_op_has_no_description (envelope_of getattrPtr)
           (VStruct "fuseops.GetInodeAttributesOp" [("Inode", GoUint64 42)])
           eq_refl).
Defined.

(** An envelope whose fields were set without [init], around an op held by
    pointer, with the debug sink configured. *)
Definition uninitialised : commonOp :=
  {| ctx := []; op := {| op_value := getattrPtr; kernelResponse := [x01] |};
     fuseID := 0%N; sendReply := None; debugLog := Some 0%nat;
     errorLogger := None; bazilReq := liveReq; finished := connFinished |}.

Definition uninitialised_quiet : commonOp :=
  {| ctx := []; op := {| op_value := getattrPtr; kernelResponse := [x01] |};
     fuseID := 0%N; sendReply := None; debugLog := None;
     errorLogger := None; bazilReq := liveReq; finished := connFinished |}.

(** X5. On the success path, and on the error path when neither sink is
    configured, [Respond] does not compute the description: once the
    completion callback has returned it submits exactly one reply under the
    request identifier and returns, also for an op whose [ShortDesc] panics;
    when the completion callback panics, nothing is submitted. *)
Theorem Respond_needs_no_description (o : commonOp) (err : option error) t :
  err = None \/ (debugLog o = None /\ errorLogger o = None) ->
  Respond o err t
  = match finished o err t with
    | (Ok _, t') =>
        (Ok tt, (t' ++ [EvReply (reqID (bazilReq o)) (payload o err)])%list)
    | (Panic msg, t') => (Panic msg, t')
    end.
Proof.
  intros H. unfold Respond, bind.
  destruct (finished o err t) as [[[]|msg] t']; [|reflexivity].
  destruct H as [->|[Hd He]].
  - reflexivity.
  - destruct err as [e|]; [|reflexivity].
    rewrite Hd, He. reflexivity.
Qed.

Lemma Respond_needs_no_description_witness :
  Respond uninitialised_quiet (Some "EIO") []
  = match finished uninitialised_quiet (Some "EIO") [] with
    | (Ok _, t') =>
        (Ok tt,
         (t' ++ [EvReply (reqID (bazilReq uninitialised_quiet))
                   (payload uninitialised_quiet (Some "EIO"))])%list)
    | (Panic msg, t') => (Panic msg, t')
    end.
Proof.
  exact (Respond_needs_no_description uninitialised_quiet (Some "EIO") []
           (or_intror (conj eq_refl eq_refl))).
Defined.

(** X6. On the error path with a sink configured, [Respond] computes the
    description after the completion callback and before the reply: when
    [ShortDesc] panics, the completion callback has run, nothing was logged
    and no reply is submitted for the request. *)
Theorem Respond_description_panic (o : commonOp) (e : error) t t' msg :
  ShortDesc o = Panic msg ->
  debugLog o <> None \/ errorLogger o <> None ->
  finished o (Some e) t = (Ok tt, t') ->
  Respond o (Some e) t = (Panic msg, t').
Proof.
  intros Hd Hsink Hf. unfold Respond, bind. rewrite Hf.
  unfold op_ShortDesc, lift, bind. rewrite Hd.
  destruct (debugLog o) eqn:Edbg; [reflexivity|].
  destruct (errorLogger o) eqn:Eerr; [reflexivity|].
  destruct Hsink as [Hs|Hs]; now contradiction Hs.
Qed.

Lemma Respond_description_panic_witness :
  Respond uninitialised (Some "EIO") []
  = (Panic "reflect: call of reflect.Value.FieldByName on ptr Value",
     [EvConnFinished (Some "EIO")]).
Proof.
  apply (Respond_description_panic uninitialised "EIO" []
           [EvConnFinished (Some "EIO")]).
  - reflexivity.
  - left. discriminate.
  - reflexivity.
Defined.




End Fuseops.

(* ================================================================== *)
(** * Package [fusetesting]: the file-metadata matchers *)
(* ================================================================== *)

Module Fusetesting.
Import Go.

(** ** Package [time] *)

(** [time.Time], by what its fields [wall], [ext] and [loc] hold: the wall
    clock reading (seconds since January 1 of year 1 and nanoseconds within
    the second), the monotonic clock reading when the value carries one
    (values made by [time.Now] do, values read from a file system do not),
    and the location pointer (0 is nil, that is UTC). The operator [!=] on
    two such structs compares all of it. *)
Record Time : Type := {
  sec : Z;
  nsec : Z;
  mono : option Z;
  loc : N
}.

Definition mono_eqb (a b : option Z) : bool :=
  match a, b with
  | Some x, Some y => (x =? y)%Z
  | None, None => true
  | _, _ => false
  end.

Definition Time_eqb (t u : Time) : bool :=
  (sec t =? sec u)%Z && (nsec t =? nsec u)%Z && mono_eqb (mono t) (mono u)
  && (loc t =? loc u)%N.

(** The instant of a [Time], in nanoseconds since January 1 of year 1. *)
Definition instant (t : Time) : Z := sec t * 1000000000 + nsec t.

(** [time.Duration] is an [int64] count of nanoseconds. *)
Definition Duration : Type := Z.
Definition minDuration : Duration := minInt64.
Definition maxDuration : Duration := maxInt64.

(** The time from [u] to [t] in nanoseconds: by the monotonic clock when
    both values carry a reading of it, by the wall clock otherwise. *)
Definition elapsed (t u : Time) : Z :=
  match mono t, mono u with
  | Some a, Some b => a - b
  | _, _ => instant t - instant u
  end.

(** [t.Sub(u)]: "returns the duration t-u. If the result exceeds the maximum
    (or minimum) value that can be stored in a Duration, the maximum (or
    minimum) duration will be returned." "If t and u both have monotonic
    clock readings, Sub uses them." *)
Definition Sub (t u : Time) : Duration :=
  let d := elapsed t u in
  if (d <? minDuration)%Z then minDuration
  else if (maxDuration <? d)%Z then maxDuration
  else d.

(** ** The values the matchers are applied to *)

(** What [fi.Sys()] returns: nil, or the platform's stat structure, given by
    its integer fields. *)
Inductive SysValue : Type :=
| SysNil
| SysStat (fields : list (string * Z)).

(** [os.FileInfo], by the results of the methods the matchers call. *)
Record FileInfo : Type := {
  Name : string;
  ModTime : Time;
  Sys : SysValue
}.

(** The candidate [c interface{}]: nil, an [os.FileInfo], or a value of
    another type, given by the name of its type. *)
Inductive any : Type :=
| AnyNil
| AnyFileInfo (fi : FileInfo)
| AnyOther (typ : string).

(** The type assertion [c.(os.FileInfo)]: the file info when it holds, and
    otherwise [reflect.TypeOf(c)] as [%v] prints it. *)
Definition asFileInfo (c : any) : FileInfo + string :=
  match c with
  | AnyNil => inr "<nil>"
  | AnyFileInfo fi => inl fi
  | AnyOther typ => inr typ
  end.

(** The errors the matchers build with [fmt.Errorf], by format and
    operands:
    - "which is of type %v";
    - "which has mtime %v, off by %v";
    - "which has Sys() birthtime %v, off by %v";
    - "which has nlink == %v". *)
Inductive matchError : Type :=
| WhichIsOfType (typ : string)
| WhichHasMtime (mtime : Time) (diff : Duration)
| WhichHasBirthtime (birthtime : Time) (d : Duration)
| WhichHasNlink (actual : N).

(** The descriptions the matchers are created with:
    "mtime is %v", "mtime is within %v of %v", "birthtime is %v",
    "nlink is %v". *)
Inductive description : Type :=
| MtimeIsDesc (expected : Time)
| MtimeIsWithinDesc (d : Duration) (expected : Time)
| BirthtimeIsDesc (expected : Time)
| NlinkIsDesc (expected : N).

(** [oglematchers.Matcher], as [oglematchers.NewMatcher] builds it from a
    predicate and a description; a nil result of [Matches] is a match. *)
Record Matcher : Type := {
  Matches : any -> option matchError;
  Description : description
}.

Definition NewMatcher (predicate : any -> option matchError)
    (d : description) : Matcher :=
  {| Matches := predicate; Description := d |}.

(** ** The mtime matchers *)

(** [func mtimeIsWithin(c interface{}, expected time.Time, d time.Duration)
    error]. *)
Definition mtimeIsWithin (c : any) (expected : Time) (d : Duration)
  : option matchError :=
  match asFileInfo c with
  | inr typ => Some (WhichIsOfType typ)
  | inl fi =>
      let diff := Sub (ModTime fi) expected in
      let absDiff := if (diff <? 0)%Z then neg64 diff else diff in
      if negb (absDiff <? d)%Z
      then Some (WhichHasMtime (ModTime fi) diff)
      else None
  end.

(** [func MtimeIs(expected time.Time) oglematchers.Matcher]. *)
Definition MtimeIs (expected : Time) : Matcher :=
  NewMatcher (fun c => mtimeIsWithin c expected 0) (MtimeIsDesc expected).

(** [func MtimeIsWithin(expected time.Time, d time.Duration)
    oglematchers.Matcher]. *)
Definition MtimeIsWithin (expected : Time) (d : Duration) : Matcher :=
  NewMatcher (fun c => mtimeIsWithin c expected d)
    (MtimeIsWithinDesc d expected).

(** ** The matchers on [Sys()] *)

Section SysMatchers.

(** [extractBirthtime] and [extractNlink] are defined per platform, outside
    the sources at hand; the matchers are embedded over any such pair. The
    boolean of the Go result pair is the [Some] here. *)
Variable extractBirthtime : SysValue -> option Time.
Variable extractNlink : SysValue -> option N.

(** [func birthtimeIs(c interface{}, expected time.Time) error]. *)
Definition birthtimeIs (c : any) (expected : Time) : option matchError :=
  match asFileInfo c with
  | inr typ => Some (WhichIsOfType typ)
  | inl fi =>
      match extractBirthtime (Sys fi) with
      | Some sysBirthtime =>
          if negb (Time_eqb sysBirthtime expected)
          then Some (WhichHasBirthtime sysBirthtime (Sub sysBirthtime expected))
          else None
      | None => None
      end
  end.

(** [func BirthtimeIs(expected time.Time) oglematchers.Matcher]. *)
Definition BirthtimeIs (expected : Time) : Matcher :=
  NewMatcher (fun c => birthtimeIs c expected) (BirthtimeIsDesc expected).

(** [func nlinkIs(c interface{}, expected uint64) error]. *)
Definition nlinkIs (c : any) (expected : N) : option matchError :=
  match asFileInfo c with
  | inr typ => Some (WhichIsOfType typ)
  | inl fi =>
      match extractNlink (Sys fi) with
      | Some actual =>
          if negb (actual =? expected)%N
          then Some (WhichHasNlink actual)
          else None
      | None => None
      end
  end.

(** [func NlinkIs(expected uint64) oglematchers.Matcher]. *)
Definition NlinkIs (expected : N) : Matcher :=
  NewMatcher (fun c => nlinkIs c expected) (NlinkIsDesc expected).

End SysMatchers.

(** ** Sample values *)

(** 2015-06-01 00:00:00 UTC. *)
Definition june2015 : Time :=
  {| sec := 63568713600; nsec := 0; mono := None; loc := 0 |}.

(** The zero [Time], January 1 of year 1, 00:00:00 UTC. *)
Definition zeroTime : Time :=
  {| sec := 0; nsec := 0; mono := None; loc := 0 |}.

Definition fileAt (mtime : Time) : FileInfo :=
  {| Name := "foo"; ModTime := mtime; Sys := SysNil |}.

(** A platform with a birth time in its stat structure (as Darwin has), and
    one without (as Linux). *)
Definition birthtimeOfStat (s : SysValue) : option Time :=
  match s with
  | SysStat (("Birthtimespec.Sec", s0) :: ("Birthtimespec.Nsec", n0) :: _) =>
      Some {| sec := 62135596800 + s0; nsec := n0; mono := None; loc := 0 |}
  | _ => None
  end.

Definition noBirthtime (s : SysValue) : option Time := None.

(* ------------------------------------------------------------------ *)
(** ** Facts about times and durations *)
(* ------------------------------------------------------------------ *)

Lemma Time_eqb_eq (t u : Time) : Time_eqb t u = true <-> t = u.
Proof.
  unfold Time_eqb. destruct t as [s1 n1 m1 l1], u as [s2 n2 m2 l2]; simpl.
  rewrite !andb_true_iff, !Z.eqb_eq, N.eqb_eq. split.
  - intros [[[-> ->] Hm] ->]. f_equal.
    destruct m1, m2; simpl in Hm; try discriminate; [|reflexivity].
    apply Z.eqb_eq in Hm. now subst.
  - intros H. inversion H; subst. repeat split.
    destruct m2; simpl; [apply Z.eqb_refl|reflexivity].
Qed.

Lemma minDuration_val : minDuration = (-9223372036854775808)%Z.
Proof. reflexivity. Qed.

Lemma maxDuration_val : maxDuration = 9223372036854775807%Z.
Proof. reflexivity. Qed.

(** Negation of an [int64] is exact, except on the least value, which it
    leaves unchanged. *)
Lemma neg64_exact (z : Z) :
  (minInt64 < z <= maxInt64)%Z -> neg64 z = (- z)%Z.
Proof.
  unfold neg64, wrap64, minInt64, maxInt64.
  change (2 ^ 63)%Z with 9223372036854775808%Z.
  change (2 ^ 64)%Z with 18446744073709551616%Z.
  intros H. rewrite Z.mod_small; lia.
Qed.

Lemma neg64_min : neg64 minInt64 = minInt64.
Proof. reflexivity. Qed.

(** [Sub] is exact when the difference fits a [Duration] and saturates
    otherwise. *)
Lemma Sub_cases (t u : Time) :
  let d := elapsed t u in
  (d < minDuration /\ Sub t u = minDuration)%Z \/
  (maxDuration < d /\ Sub t u = maxDuration)%Z \/
  (minDuration <= d <= maxDuration /\ Sub t u = d)%Z.
Proof.
  unfold Sub. simpl.
  destruct (Z.ltb_spec (elapsed t u) minDuration); [left; auto|].
  destruct (Z.ltb_spec maxDuration (elapsed t u));
    [right; left; auto|].
  right; right. split; [lia|reflexivity].
Qed.

(* ------------------------------------------------------------------ *)
(** ** The matchers *)
(* ------------------------------------------------------------------ *)

(** A birth time that is the instant of [june2015] in another location, as
    a platform's [extractBirthtime] hands it back for a file made then. *)
Definition june2015Local : Time :=
  {| sec := 63568713600; nsec := 0; mono := None; loc := 5 |}.

(** The same wall clock reading and location as [june2015], with a
    monotonic clock reading. *)
Definition june2015Mono : Time :=
  {| sec := 63568713600; nsec := 0; mono := Some 1000; loc := 0 |}.

(** C8. [BirthtimeIs] matches every [os.FileInfo] from whose [Sys()] value
    no birth time can be extracted, whatever the expected time. It does not
    fail only when the birth time differs from the expected time: the two
    structs are compared with [!=], so a birth time that is the expected
    instant in another location, or that differs from the expected time in
    the monotonic clock reading alone, is rejected, with a reported
    difference of zero. *)
Theorem BirthtimeIs_rejects_equal_instant :
  (forall (extractBirthtime : SysValue -> option Time) fi expected,
     extractBirthtime (Sys fi) = None ->
     Matches (BirthtimeIs extractBirthtime expected) (AnyFileInfo fi) = None)
  /\
  instant june2015Local = instant june2015 /\
  Sub june2015Local june2015 = 0%Z /\
  Matches (BirthtimeIs (fun _ => Some june2015Local) june2015)
    (AnyFileInfo (fileAt june2015))
  = Some (WhichHasBirthtime june2015Local 0) /\
  instant june2015Mono = instant june2015 /\
  Matches (BirthtimeIs (fun _ => Some june2015) june2015Mono)
    (AnyFileInfo (fileAt june2015))
  = Some (WhichHasBirthtime june2015 0).
Proof.
  split; [|repeat split].
  intros extractBirthtime fi expected H. simpl. unfold birthtimeIs.
  simpl asFileInfo. cbv iota beta. now rewrite H.
Qed.

(** C9. The mtime matcher does not accept exactly the files whose mtime is
    less than the tolerance away, and [MtimeIs] does not reject every file:
    a file whose mtime is the zero [Time] is accepted by [MtimeIs], and by
    [MtimeIsWithin] with a tolerance of one second, for an expected time in
    2015, though the two are more than two thousand years apart. The
    difference saturates at the least [Duration], whose negation is itself
    and lies below every tolerance; a file whose mtime is the expected time
    is rejected by [MtimeIs]. *)
Theorem MtimeIs_accepts_zero_mtime :
  Sub zeroTime june2015 = minDuration /\
  neg64 minDuration = minDuration /\
  Matches (MtimeIs june2015) (AnyFileInfo (fileAt zeroTime)) = None /\
  ~ (Z.abs (instant zeroTime - instant june2015) < 0)%Z /\
  Matches (MtimeIsWithin june2015 1000000000) (AnyFileInfo (fileAt zeroTime))
  = None /\
  ~ (Z.abs (instant zeroTime - instant june2015) < 1000000000)%Z /\
  Matches (MtimeIs june2015) (AnyFileInfo (fileAt june2015))
  = Some (WhichHasMtime june2015 0).
Proof.
  repeat split; intros H; discriminate H.
Qed.

(* ------------------------------------------------------------------ *)
(** ** Further properties of the matchers *)
(* ------------------------------------------------------------------ *)

Lemma Sub_elapsed (t t' u u' : Time) :
  elapsed t u = elapsed t' u' -> Sub t u = Sub t' u'.
Proof. intros H. unfold Sub. now rewrite H. Qed.

(** Two pairs of times with the same wall clock instants and the same
    monotonic readings are equally far apart. *)
Lemma elapsed_same_readings (t t' u u' : Time) :
  instant t = instant t' -> instant u = instant u' ->
  mono t = mono t' -> mono u = mono u' ->
  elapsed t u = elapsed t' u'.
Proof. intros Ht Hu Hmt Hmu. unfold elapsed. now rewrite Ht, Hu, Hmt, Hmu. Qed.

(** What [mtimeIsWithin] compares with the tolerance. *)
Definition absDiff (fi : FileInfo) (expected : Time) : Z :=
  let diff := Sub (ModTime fi) expected in
  if (diff <? 0)%Z then neg64 diff else diff.

Lemma mtimeIsWithin_absDiff (fi : FileInfo) (expected : Time) (d : Duration) :
  mtimeIsWithin (AnyFileInfo fi) expected d = None <->
  (absDiff fi expected < d)%Z.
Proof.
  unfold mtimeIsWithin, absDiff. simpl asFileInfo. cbv iota beta zeta.
  destruct (Z.ltb_spec
              (if (Sub (ModTime fi) expected <? 0)%Z
               then neg64 (Sub (ModTime fi) expected)
               else Sub (ModTime fi) expected) d); simpl.
  - split; [intros _; assumption|reflexivity].
  - split; [discriminate|lia].
Qed.

Lemma absDiff_cases (fi : FileInfo) (expected : Time) :
  let delta := elapsed (ModTime fi) expected in
  (delta <= minDuration /\ absDiff fi expected = minDuration)%Z \/
  (minDuration < delta <= maxDuration /\
   absDiff fi expected = Z.abs delta)%Z \/
  (maxDuration < delta /\ absDiff fi expected = maxDuration)%Z.
Proof.
  cbv zeta. unfold absDiff. cbv zeta.
  destruct (Sub_cases (ModTime fi) expected)
    as [[H ->]|[[H ->]|[H ->]]]; cbv zeta in H.
  - left. split; [lia|reflexivity].
  - right; right. split; [exact H|reflexivity].
  - destruct (Z.eq_dec (elapsed (ModTime fi) expected) minDuration)
      as [E|E].
    + left. rewrite E. split; [lia|reflexivity].
    + right; left. split; [lia|].
      destruct (Z.ltb_spec (elapsed (ModTime fi) expected) 0).
      * rewrite neg64_exact
          by (unfold minInt64, maxInt64;
              rewrite minDuration_val, maxDuration_val in *;
              change (2 ^ 63)%Z with 9223372036854775808%Z; lia).
        lia.
      * lia.
Qed.

(** X8. A candidate that is not an [os.FileInfo] is rejected by the three
    matchers with one and the same error, which names the candidate's type
    (nil prints as [<nil>]) and does not depend on the expected value, the
    tolerance or the platform. *)
Theorem matchers_reject_other_types
    (extractBirthtime : SysValue -> option Time)
    (extractNlink : SysValue -> option N) (c : any) :
  (forall fi, c <> AnyFileInfo fi) ->
  exists typ,
    (c = AnyNil -> typ = "<nil>") /\
    (forall name, c = AnyOther name -> typ = name) /\
    (forall expected d,
       mtimeIsWithin c expected d = Some (WhichIsOfType typ)) /\
    (forall expected,
       birthtimeIs extractBirthtime c expected = Some (WhichIsOfType typ)) /\
    (forall expected,
       nlinkIs extractNlink c expected = Some (WhichIsOfType typ)).
Proof.
  intros H. destruct c as [|fi|name].
  - exists "<nil>". repeat split. intros name E. discriminate E.
  - now contradiction (H fi).
  - exists name. repeat split; [intros E; discriminate E|].
    intros name' E. now inversion E.
Qed.

Lemma matchers_reject_other_types_witness :
  exists typ,
    (AnyOther "string" = AnyNil -> typ = "<nil>") /\
    (forall name, AnyOther "string" = AnyOther name -> typ = name) /\
    (forall expected d,
       mtimeIsWithin (AnyOther "string") expected d
       = Some (WhichIsOfType typ)) /\
    (forall expected,
       birthtimeIs birthtimeOfStat (AnyOther "string") expected
       = Some (WhichIsOfType typ)) /\
    (forall expected,
       nlinkIs (fun _ => Some 1%N) (AnyOther "string") expected
       = Some (WhichIsOfType typ)).
Proof.
  apply (matchers_reject_other_types birthtimeOfStat (fun _ => Some 1%N)
           (AnyOther "string")).
  intros fi E. discriminate E.
Defined.

(** X9. [NlinkIs] matches exactly the [os.FileInfo] values from whose
    [Sys()] either no link count can be extracted or the expected one is;
    a differing count is reported in the error. *)
Theorem NlinkIs_matches (extractNlink : SysValue -> option N)
    (c : any) (expected : N) :
  (Matches (NlinkIs extractNlink expected) c = None <->
   exists fi,
     c = AnyFileInfo fi /\
     (extractNlink (Sys fi) = None \/ extractNlink (Sys fi) = Some expected))
  /\
  (forall fi actual,
     c = AnyFileInfo fi -> extractNlink (Sys fi) = Some actual ->
     actual <> expected ->
     Matches (NlinkIs extractNlink expected) c = Some (WhichHasNlink actual)).
Proof.
  simpl. unfold nlinkIs. split; [split|].
  - destruct c as [|fi|name]; simpl; try discriminate.
    intros H. exists fi. split; [reflexivity|].
    destruct (extractNlink (Sys fi)) as [actual|]; [|now left].
    destruct (actual =? expected)%N eqn:Eq; simpl in H;
      [apply N.eqb_eq in Eq; subst actual; now right|discriminate H].
  - intros (fi & -> & [E|E]); simpl; rewrite E; [reflexivity|].
    now rewrite N.eqb_refl.
  - intros fi actual -> E Hne. simpl. rewrite E.
    destruct (actual =? expected)%N eqn:Eq; [|reflexivity].
    apply N.eqb_eq in Eq. contradiction.
Qed.

(** X10. Widening the tolerance never turns a match into a mismatch: what
    [mtimeIsWithin] accepts within [d] it accepts within every larger
    tolerance. *)
Theorem mtimeIsWithin_monotone (c : any) (expected : Time) (d d' : Duration) :
  (d <= d')%Z ->
  mtimeIsWithin c expected d = None ->
  mtimeIsWithin c expected d' = None.
Proof.
  intros Hd H. destruct c as [|fi|name]; try discriminate H.
  apply mtimeIsWithin_absDiff in H. apply mtimeIsWithin_absDiff. lia.
Qed.

Lemma mtimeIsWithin_monotone_witness :
  mtimeIsWithin
    (AnyFileInfo
       (fileAt {| sec := 63568713600; nsec := 500000000; mono := None; loc := 0 |}))
    june2015 2000000000 = None.
Proof.
  apply (mtimeIsWithin_monotone _ june2015 1000000000 2000000000).
  - lia.
  - reflexivity.
Defined.

(** X11. The verdict of [mtimeIsWithin] on a file, for every tolerance that
    a [Duration] can hold: the file is accepted exactly when its mtime is
    less than 2^63 ns before the expected time and the absolute difference
    is below the tolerance, or when its mtime is 2^63 ns or more before the
    expected time and the tolerance is above the least [Duration]; a file
    2^63 ns or more after the expected time is never accepted. The
    difference is the one [Sub] measures: by the wall clock, unless both
    times carry a monotonic reading. *)
Theorem mtimeIsWithin_verdict (fi : FileInfo) (expected : Time) (d : Duration) :
  (d <= maxDuration)%Z ->
  (mtimeIsWithin (AnyFileInfo fi) expected d = None <->
   (minDuration < elapsed (ModTime fi) expected /\
    Z.abs (elapsed (ModTime fi) expected) < d)%Z \/
   (elapsed (ModTime fi) expected <= minDuration /\
    minDuration < d)%Z) /\
  (mono (ModTime fi) = None \/ mono expected = None ->
   elapsed (ModTime fi) expected
   = (instant (ModTime fi) - instant expected)%Z).
Proof.
  intros Hd. split.
  - rewrite mtimeIsWithin_absDiff.
    destruct (absDiff_cases fi expected) as [[H ->]|[[H ->]|[H ->]]];
      cbv zeta in H; rewrite ?minDuration_val, ?maxDuration_val in *; lia.
  - unfold elapsed. intros [-> | ->]; [reflexivity|].
    destruct (mono (ModTime fi)); reflexivity.
Qed.

Lemma mtimeIsWithin_verdict_witness :
  (mtimeIsWithin (AnyFileInfo (fileAt zeroTime)) june2015 (-5) = None <->
   (minDuration < elapsed (ModTime (fileAt zeroTime)) june2015 /\
    Z.abs (elapsed (ModTime (fileAt zeroTime)) june2015) < -5)%Z \/
   (elapsed (ModTime (fileAt zeroTime)) june2015 <= minDuration /\
    minDuration < -5)%Z) /\
  (mono (ModTime (fileAt zeroTime)) = None \/ mono june2015 = None ->
   elapsed (ModTime (fileAt zeroTime)) june2015
   = (instant (ModTime (fileAt zeroTime)) - instant june2015)%Z).
Proof.
  apply (mtimeIsWithin_verdict (fileAt zeroTime) june2015 (-5)).
  rewrite maxDuration_val. lia.
Defined.

(** X12. [birthtimeIs] compares the two [time.Time] structs with [!=], not
    the instants: a birth time that [Sub] finds no time apart from the
    expected time (the same instant, when not both carry a monotonic
    reading) but that is not the same struct (another location, say) is
    rejected, and the error reports a difference of zero. *)
Theorem birthtimeIs_compares_structs
    (extractBirthtime : SysValue -> option Time)
    (fi : FileInfo) (b expected : Time) :
  extractBirthtime (Sys fi) = Some b ->
  elapsed b expected = 0%Z ->
  b <> expected ->
  birthtimeIs extractBirthtime (AnyFileInfo fi) expected
  = Some (WhichHasBirthtime b 0) /\
  (mono b = None \/ mono expected = None ->
   instant b = instant expected).
Proof.
  intros E Hi Hne. unfold birthtimeIs. simpl asFileInfo. cbv iota beta.
  rewrite E.
  destruct (Time_eqb b expected) eqn:Eb;
    [apply Time_eqb_eq in Eb; contradiction|].
  simpl. unfold Sub. rewrite Hi. split; [reflexivity|].
  unfold elapsed in Hi. intros [Hm|Hm]; rewrite Hm in Hi;
    [|destruct (mono b)]; lia.
Qed.

Lemma birthtimeIs_compares_structs_witness :
  birthtimeIs
    (fun _ => Some {| sec := 63568713600; nsec := 0; mono := None; loc := 5 |})
    (AnyFileInfo (fileAt june2015)) june2015
  = Some
      (WhichHasBirthtime
         {| sec := 63568713600; nsec := 0; mono := None; loc := 5 |} 0) /\
  (mono {| sec := 63568713600; nsec := 0; mono := None; loc := 5 |} = None \/
   mono june2015 = None ->
   instant {| sec := 63568713600; nsec := 0; mono := None; loc := 5 |}
   = instant june2015).
Proof.
  apply (birthtimeIs_compares_structs
           (fun _ => Some {| sec := 63568713600; nsec := 0; mono := None; loc := 5 |})
           (fileAt june2015)
           {| sec := 63568713600; nsec := 0; mono := None; loc := 5 |} june2015).
  - reflexivity.
  - reflexivity.
  - discriminate.
Defined.

(** X13. The verdict of [mtimeIsWithin] does not depend on locations: two
    files whose mtimes denote the same instant, matched against two expected
    times that denote the same instant, are both accepted or both rejected,
    whatever their locations, when the clock readings [Sub] measures by are
    the same (no monotonic reading, as for times read from a file system,
    or the same one). *)
Theorem mtimeIsWithin_instants_only
    (fi1 fi2 : FileInfo) (e1 e2 : Time) (d : Duration) :
  instant (ModTime fi1) = instant (ModTime fi2) ->
  instant e1 = instant e2 ->
  mono (ModTime fi1) = mono (ModTime fi2) ->
  mono e1 = mono e2 ->
  (mtimeIsWithin (AnyFileInfo fi1) e1 d = None <->
   mtimeIsWithin (AnyFileInfo fi2) e2 d = None).
Proof.
  intros H1 H2 M1 M2. rewrite !mtimeIsWithin_absDiff. unfold absDiff.
  now rewrite (Sub_elapsed _ _ _ _ (elapsed_same_readings _ _ _ _ H1 H2 M1 M2)).
Qed.

Lemma mtimeIsWithin_instants_only_witness :
  mtimeIsWithin
    (AnyFileInfo (fileAt {| sec := 63568713600; nsec := 0; mono := None; loc := 5 |}))
    june2015 1 = None <->
  mtimeIsWithin (AnyFileInfo (fileAt june2015))
    {| sec := 63568713600; nsec := 0; mono := None; loc := 9 |} 1 = None.
Proof.
  exact (mtimeIsWithin_instants_only
           (fileAt {| sec := 63568713600; nsec := 0; mono := None; loc := 5 |})
           (fileAt june2015) june2015
           {| sec := 63568713600; nsec := 0; mono := None; loc := 9 |} 1
           eq_refl eq_refl eq_refl eq_refl).
Defined.

End Fusetesting.
